(** * Mandelbrot viewer: escape-time evaluator and zoom controller

    A shallow embedding of [main.py]:
    - [mandelbrot], the escape-time evaluator (lines 16-31), with the two
      numpy arrays [Z] and [div_time] updated in place by the triple loop;
    - the click handler that recentres and zooms the viewport (lines
      113-157), acting on the fields of [st.session_state];
    - the polling loop that upgrades the image quality (lines 174-192), as
      a function of the values [time.time()] returns, and one run of the
      script (lines 90-192) as a function of the stored session, the slider
      value and the objects of the canvas.

    The plotting of [generate_mandelbrot_image] (lines 36-44, matplotlib) is
    not modelled; where the script's state depends on that call returning,
    the definition says so.

    The numeric code is written once, over the interface [PyFloat] of the
    operations the program applies to Python floats.  Two instances are
    given.  [binary64] (IEEE double precision) is what the program runs on:
    the statements about the program's numbers are stated on it, or for
    every instance.  [exact] (the rationals) is an idealisation without
    rounding, overflow or NaN: a statement on it describes the formulas of
    the code, not the values the program computes, and is marked as such.

    [np.linspace] is numpy's; it is modelled after its documentation.  The
    licence [fastmath=True] gives the compiler to re-associate floating-point
    operations is not modelled: [binary64] evaluates each operation as
    written. *)

From Stdlib Require Import ZArith QArith Lqa Floats.
From stdpp Require Import base tactics option list list_numbers.

Local Open Scope Z_scope.

(** ** Numbers *)

(** The operations of Python's [float] that the program uses.  [of_int] is
    the promotion of an [int] operand in mixed arithmetic, [lit] a decimal
    literal of the source, [fgt a b] the comparison [a > b]. *)
Class PyFloat (F : Type) := {
  fadd : F -> F -> F;
  fsub : F -> F -> F;
  fmul : F -> F -> F;
  fdiv : F -> F -> F;
  fgt : F -> F -> bool;
  of_int : Z -> F;
  lit : Q -> F
}.

Declare Scope pyfloat_scope.
Delimit Scope pyfloat_scope with pyfloat.
Infix "+" := fadd : pyfloat_scope.
Infix "-" := fsub : pyfloat_scope.
Infix "*" := fmul : pyfloat_scope.
Infix "/" := fdiv : pyfloat_scope.

(** IEEE binary64.  The integers the program promotes (pixel counts, loop
    indices, the slider value) are far below 2^53, where [of_uint63] is
    exact; a literal is the correctly rounded quotient of its numerator and
    denominator. *)
Definition float_of_int (z : Z) : float :=
  if z <? 0 then PrimFloat.opp (PrimFloat.of_uint63 (Uint63.of_Z (- z)))
  else PrimFloat.of_uint63 (Uint63.of_Z z).

#[export] Instance binary64 : PyFloat float := {|
  fadd := PrimFloat.add;
  fsub := PrimFloat.sub;
  fmul := PrimFloat.mul;
  fdiv := PrimFloat.div;
  fgt := fun a b => PrimFloat.ltb b a;
  of_int := float_of_int;
  lit := fun q => PrimFloat.div (float_of_int (Qnum q)) (float_of_int (Zpos (Qden q)))
|}.

(** Exact arithmetic on the rationals: no rounding, no overflow, no NaN.
    This is not the arithmetic of the program; it serves to state what the
    formulas of the code mean as formulas. *)
#[export] Instance exact : PyFloat Q := {|
  fadd := Qplus;
  fsub := Qminus;
  fmul := Qmult;
  fdiv := Qdiv;
  fgt := fun a b => negb (Qle_bool a b);
  of_int := inject_Z;
  lit := fun q => q
|}.

(** The value stored in a cell of an [np.int32] array: the low 32 bits,
    read as a signed integer. *)
Definition int32 (i : Z) : Z := (i + 2 ^ 31) mod 2 ^ 32 - 2 ^ 31.

(** Python exceptions the modelled code can raise. *)
Inductive exn : Type :=
  | ValueError.

Inductive result (A : Type) : Type :=
  | Ok (a : A)
  | Raise (e : exn).
Arguments Ok {A} a.
Arguments Raise {A} e.

(** ** Two-dimensional arrays *)

Section Grid.
Context {A : Type}.

Definition get2 (g : list (list A)) (j k : nat) : option A :=
  match g !! j with
  | Some row => row !! k
  | None => None
  end.

Definition set2 (g : list (list A)) (j k : nat) (v : A) : list (list A) :=
  alter (fun row => <[k := v]> row) j g.

(** [np.zeros((h, w))] and friends: [h] rows of [w] copies of [v]. *)
Definition full (h w : nat) (v : A) : list (list A) :=
  replicate h (replicate w v).

(** The array has shape [(h, w)]. *)
Definition shape (g : list (list A)) (h w : nat) : Prop :=
  length g = h /\ Forall (fun row => length row = w) g.
End Grid.

(** ** The escape-time evaluator *)

Section Evaluator.
Context {F : Type} `{PyFloat F}.
Local Open Scope pyfloat_scope.

(** [np.complex128] with the arithmetic numpy performs on it. *)
Record complex := Complex { re : F; im : F }.

Definition cadd (a b : complex) : complex :=
  Complex (re a + re b) (im a + im b).

Definition cmul (a b : complex) : complex :=
  Complex (re a * re b - im a * im b) (re a * im b + im a * re b).

Definition of_real (a : F) : complex := Complex a (of_int 0).

(** The literal [1j]. *)
Definition imag_unit : complex := Complex (of_int 0) (of_int 1).

Definition czero : complex := Complex (of_int 0) (of_int 0).

(** [range(n)] *)
Definition range (n : Z) : list Z := seqZ 0 n.

(** [np.linspace(start, stop, num)]: [num] samples, the [i]-th at
    [start + i * step] with [step = (stop - start) / (num - 1)], the last
    one exactly [stop]; a negative [num] is refused. *)
Definition linspace (start stop : F) (num : Z) : result (list F) :=
  if num <? 0 then Raise ValueError
  else
    let div := (num - 1)%Z in
    let arr :=
      if 0 <? div then
        let step := (stop - start) / of_int div in
        (fun i => start + of_int i * step) <$> range num
      else replicate (Z.to_nat num) start in
    Ok (if 1 <? num then <[Z.to_nat div := stop]> arr else arr).

(** The point of the plane stored for the abscissa [xk] and the ordinate
    [yj], and [C = x + y[:, None] * 1j]. *)
Definition sample (xk yj : F) : complex :=
  cadd (of_real xk) (cmul (of_real yj) imag_unit).

Definition sample_grid (x y : list F) : list (list complex) :=
  (fun yj => (fun xk => sample xk yj) <$> x) <$> y.

(** The arrays the loop mutates. *)
Record arrays := Arrays {
  Zs : list (list complex);
  div_time : list (list Z)
}.

(** [Z[j, k].real * Z[j, k].real + Z[j, k].imag * Z[j, k].imag > 4.0] *)
Definition escaped (z : complex) : bool :=
  fgt (re z * re z + im z * im z) (lit 4).

(** The body of the innermost loop at [(i, j, k)].  The indices range over
    the shape of the arrays, so the lookups succeed. *)
Definition visit (C : list (list complex)) (i : Z) (j k : nat) (st : arrays) : arrays :=
  match get2 C j k, get2 (Zs st) j k, get2 (div_time st) j k with
  | Some c, Some z, Some d =>
      if d =? 0 then
        let z' := cadd (cmul z z) c in
        let zs' := set2 (Zs st) j k z' in
        if escaped z' then Arrays zs' (set2 (div_time st) j k (int32 i))
        else Arrays zs' (div_time st)
      else st
  | _, _, _ => st
  end.

(** [for k in range(w)], [for j in range(h)], [for i in range(max_iter)] *)
Definition sweep_row (C : list (list complex)) (i : Z) (w : nat) (st : arrays) (j : nat) : arrays :=
  foldl (fun st k => visit C i j k st) st (seq 0 w).

Definition sweep (C : list (list complex)) (h w : nat) (st : arrays) (i : Z) : arrays :=
  foldl (sweep_row C i w) st (seq 0 h).

Definition iterate (C : list (list complex)) (h w : nat) (max_iter : Z) (st : arrays) : arrays :=
  foldl (sweep C h w) st (range max_iter).

(** Lines 17-19: the sample points [C] of a call. *)
Definition sample_points (h w : Z) (x_min x_max y_min y_max : F)
  : result (list (list complex)) :=
  match linspace x_min x_max w with
  | Raise e => Raise e
  | Ok x =>
      match linspace y_min y_max h with
      | Raise e => Raise e
      | Ok y => Ok (sample_grid x y)
      end
  end.

(** [mandelbrot(h, w, x_min, x_max, y_min, y_max, max_iter)] *)
Definition mandelbrot (h w : Z) (x_min x_max y_min y_max : F) (max_iter : Z)
  : result (list (list Z)) :=
  match sample_points h w x_min x_max y_min y_max with
  | Raise e => Raise e
  | Ok C =>
      let hn := Z.to_nat h in
      let wn := Z.to_nat w in
      let st := Arrays (full hn wn czero) (full hn wn 0%Z) in
      Ok (div_time (iterate C hn wn max_iter st))
  end.

(** *** The loop seen from one cell

    What the loop body does to the pair [(Z[j, k], div_time[j, k])] of a cell
    sampling [c] when the outer loop is at [i], and over a run of outer
    iterations. *)
Definition cell_step (c : complex) (zd : complex * Z) (i : Z) : complex * Z :=
  let (z, d) := zd in
  if d =? 0 then
    let z' := cadd (cmul z z) c in
    (z', if escaped z' then int32 i else d)
  else (z, d).

Definition cell_run (c : complex) (zd : complex * Z) (l : list Z) : complex * Z :=
  foldl (cell_step c) zd l.

(** The contents of cell [(j, k)]: the sample point and the two mutable
    entries. *)
Definition cell (C : list (list complex)) (st : arrays) (j k : nat)
  : option (complex * (complex * Z)) :=
  match get2 C j k, get2 (Zs st) j k, get2 (div_time st) j k with
  | Some c, Some z, Some d => Some (c, (z, d))
  | _, _, _ => None
  end.

(** Both arrays have shape [(h, w)]. *)
Definition well_shaped (h w : nat) (st : arrays) : Prop :=
  shape (Zs st) h w /\ shape (div_time st) h w.

Definition cell_advance (i : Z) (v : complex * (complex * Z)) : complex * (complex * Z) :=
  (v.1, cell_step v.1 v.2 i).

Definition cell_finish (l : list Z) (v : complex * (complex * Z)) : complex * (complex * Z) :=
  (v.1, cell_run v.1 v.2 l).

(** The orbit of [c]: the value of [Z] after [n] updates that all ran. *)
Fixpoint orbit (c : complex) (n : nat) : complex :=
  match n with
  | O => czero
  | S n' => cadd (cmul (orbit c n') (orbit c n')) c
  end.
End Evaluator.

Arguments complex F : clear implicits.
Arguments arrays F : clear implicits.

(** Python's [==] on two complex numbers held in binary64: IEEE equality of
    the parts, under which [0.0] and [-0.0] are equal. *)
Definition ceq (a b : complex float) : bool :=
  PrimFloat.eqb (re a) (re b) && PrimFloat.eqb (im a) (im b).

(** ** The session and the click handler *)

(** The values of [image_quality]. *)
Inductive quality : Type :=
  | very_low
  | high.

(** The fields of [st.session_state] that the controller reads and writes
    (the rendered image [mandelbrot_bg] is left out). *)
Record session (F : Type) := Session {
  x_min : F;
  x_max : F;
  y_min : F;
  y_max : F;
  resolution : Z * Z;
  zoom_factor : Z;
  total_zoom : F;
  last_point : option (F * F);
  clear_canvas : bool;
  zoom_pending : bool;
  image_quality : quality;
  last_click_time : F
}.
Arguments Session {F}.
Arguments x_min {F}.
Arguments x_max {F}.
Arguments y_min {F}.
Arguments y_max {F}.
Arguments resolution {F}.
Arguments zoom_factor {F}.
Arguments total_zoom {F}.
Arguments last_point {F}.
Arguments clear_canvas {F}.
Arguments zoom_pending {F}.
Arguments image_quality {F}.
Arguments last_click_time {F}.

Section Controller.
Context {F : Type} `{PyFloat F}.
Local Open Scope pyfloat_scope.

(** Lines 47-72: the defaults of a fresh session, started at time [now]. *)
Definition initial_session (now : F) : session F := {|
  x_min := lit (-5 # 2);
  x_max := lit 1;
  y_min := lit (-5 # 4);
  y_max := lit (5 # 4);
  resolution := (1600, 900)%Z;
  zoom_factor := 1;
  total_zoom := lit 1;
  last_point := None;
  clear_canvas := false;
  zoom_pending := false;
  image_quality := very_low;
  last_click_time := now
|}.

(** Lines 90-91: the slider writes its value, an integer of
    [-1000 .. 1000], into the session. *)
Definition set_zoom_factor (st : session F) (value : Z) : session F :=
  Session (x_min st) (x_max st) (y_min st) (y_max st) (resolution st)
    value (total_zoom st) (last_point st) (clear_canvas st)
    (zoom_pending st) (image_quality st) (last_click_time st).

(** Lines 126-129: the plane coordinates [new_x], [new_y] of a canvas
    position. *)
Definition click_x (st : session F) (x : F) : F :=
  let x_range := x_max st - x_min st in
  x_min st + (x / of_int 1600) * x_range.

Definition click_y (st : session F) (y : F) : F :=
  let y_range := y_max st - y_min st in
  y_min st + (y / of_int 900) * y_range.

(** Lines 135-138: the factor applied to the extents. *)
Definition zoom_multiplier (zf : Z) : F :=
  if (0 <? zf)%Z then of_int 1 / of_int zf
  else of_int (Z.abs zf).

(** Lines 121-154: a dot drawn at canvas position [(x, y)] at time [now]
    recentres the viewport on it and rescales the extents. *)
Definition recenter_and_zoom (st : session F) (x y now : F) : session F :=
  let x_range := x_max st - x_min st in
  let y_range := y_max st - y_min st in
  let new_x := click_x st x in
  let new_y := click_y st y in
  let zoom := zoom_multiplier (zoom_factor st) in
  let x_range_zoomed := x_range * zoom in
  let y_range_zoomed := y_range * zoom in
  {|
    x_min := new_x - x_range_zoomed / of_int 2;
    x_max := new_x + x_range_zoomed / of_int 2;
    y_min := new_y - y_range_zoomed / of_int 2;
    y_max := new_y + y_range_zoomed / of_int 2;
    resolution := resolution st;
    zoom_factor := zoom_factor st;
    total_zoom := total_zoom st * zoom;
    last_point := Some (x, y);
    clear_canvas := true;
    zoom_pending := true;
    image_quality := very_low;
    last_click_time := now
  |}.

(** Lines 126-146 along one axis: the two new bounds, from the old ones
    [lo] and [hi], the size of the canvas, the position [p] of the dot and
    the factor [zoom]. *)
Definition recenter_axis (lo hi size p zoom : F) : F * F :=
  let range := hi - lo in
  let new := lo + (p / size) * range in
  let range_zoomed := range * zoom in
  (new - range_zoomed / of_int 2, new + range_zoomed / of_int 2).

(** Line 110: the flag that clears the canvas is reset on every run. *)
Definition reset_clear_canvas (st : session F) : session F :=
  Session (x_min st) (x_max st) (y_min st) (y_max st) (resolution st)
    (zoom_factor st) (total_zoom st) (last_point st) false
    (zoom_pending st) (image_quality st) (last_click_time st).

(** Lines 110-113: the handler runs on the last object of the canvas,
    unless a zoom is already pending. *)
Definition on_canvas (st : session F) (objects : list (F * F)) (now : F) : session F :=
  let st := reset_clear_canvas st in
  match last objects with
  | Some (x, y) =>
      if zoom_pending st then st else recenter_and_zoom st x y now
  | None => st
  end.

(** Lines 160-168, when the call of [generate_mandelbrot_image] at lines
    162-165 returns: a pending zoom is served by a low-quality render, and
    the flag is cleared.  (When the call raises, the run ends there and the
    session keeps [zoom_pending = True]; that outcome is not part of this
    function.) *)
Definition serve_zoom (st : session F) : session F :=
  if zoom_pending st then
    Session (x_min st) (x_max st) (y_min st) (y_max st) (resolution st)
      (zoom_factor st) (total_zoom st) (last_point st) (clear_canvas st)
      false very_low (last_click_time st)
  else st.

(** One zoom interaction whose render returns: the user sets the slider to
    [value] and draws a dot at [(x, y)]; the run that sees the dot executes
    the handler and ends at line 157; the next run, on the cleared canvas,
    resets [clear_canvas] at line 110, skips the handler and serves the
    pending zoom. *)
Record interaction := Interaction {
  slider : Z;
  dot_x : F;
  dot_y : F;
  at_time : F
}.

Definition interact (st : session F) (a : interaction) : session F :=
  let handled :=
    on_canvas (set_zoom_factor st (slider a)) [(dot_x a, dot_y a)] (at_time a) in
  serve_zoom (on_canvas handled [] (at_time a)).

Definition interactions (st : session F) (l : list interaction) : session F :=
  foldl interact st l.

(** The viewport is a proper rectangle. *)
Definition ordered (st : session F) : bool :=
  fgt (x_max st) (x_min st) && fgt (y_max st) (y_min st).
End Controller.

Arguments interaction F : clear implicits.

(** ** The recorded escape time *)

Section EscapeTime.
Context {F : Type} `{PyFloat F}.

(** The loop index at which the loop records the escape of [c]: the first
    index from 1 on after whose update [Z] is outside the radius, and 0 when
    there is none below [max_iter]. *)
Definition escape_time (c : complex F) (max_iter : Z) : Z :=
  match List.find (fun i => escaped (orbit c (S (Z.to_nat i)))) (seqZ 1 (max_iter - 1)) with
  | Some i => i
  | None => 0%Z
  end.
End EscapeTime.

(** ** The quality upgrade *)

Section Script.
Context {F : Type} `{PyFloat F}.
Local Open Scope pyfloat_scope.

(** Line 180 and line 189: the two fields the upgrade block writes. *)
Definition set_last_click_time (st : session F) (t : F) : session F :=
  Session (x_min st) (x_max st) (y_min st) (y_max st) (resolution st)
    (zoom_factor st) (total_zoom st) (last_point st) (clear_canvas st)
    (zoom_pending st) (image_quality st) t.

Definition set_image_quality (st : session F) (q : quality) : session F :=
  Session (x_min st) (x_max st) (y_min st) (y_max st) (resolution st)
    (zoom_factor st) (total_zoom st) (last_point st) (clear_canvas st)
    (zoom_pending st) q (last_click_time st).

(** [time.time() - st.session_state.last_click_time < 10] for the clock
    value [t]. *)
Definition waiting (st : session F) (t : F) : bool :=
  fgt (lit 10) (t - last_click_time st).

(** Lines 176-192: the polling loop.  [clock] lists the values the
    successive calls of [time.time()] return (the loop test, the text of
    line 177, line 180); [has_dot] is the test of line 179 on
    [canvas_result], which is read once, before the loop.  The result is
    the session and the iteration count of the render the block issued, if
    any; [None] when the clock values run out before the loop ends. *)
Fixpoint upgrade_loop (st : session F) (has_dot : bool) (clock : list F)
  : option (session F * option Z) :=
  match clock with
  | [] => None
  | t :: clock1 =>
      if waiting st t then
        match clock1 with
        | [] => None
        | _ :: clock2 =>
            if has_dot then
              match clock2 with
              | [] => None
              | t3 :: _ => Some (set_last_click_time st t3, None)
              end
            else upgrade_loop st has_dot clock2
        end
      else Some (set_image_quality st high, Some 500%Z)
  end.

(** Lines 174-192: the block runs for a draft image only. *)
Definition upgrade_quality (st : session F) (has_dot : bool) (clock : list F)
  : option (session F * option Z) :=
  match image_quality st with
  | very_low => upgrade_loop st has_dot clock
  | high => Some (st, None)
  end.



End Script.

(** ** A tolerance on binary64, and the pixels and slider values one by one *)

(** [new] is [old] up to the fraction [tol] of [scale]: the comparison
    [abs(new - old) <= tol * scale], evaluated on binary64.  It is false
    when one of the numbers is a NaN. *)
Definition unchanged_within (tol scale old new : float) : bool :=
  PrimFloat.leb (PrimFloat.abs (PrimFloat.sub new old)) (PrimFloat.mul tol scale).





(** * Properties *)

(** ** Arrays *)

Section GridFacts.
Context {A : Type}.
Implicit Types g : list (list A).

Lemma get2_set2_eq g j k v :
  is_Some (get2 g j k) -> get2 (set2 g j k v) j k = Some v.
Proof.
  unfold get2, set2. intros [a Ha].
  rewrite list_lookup_alter_eq.
  destruct (g !! j) as [row|] eqn:Hrow; [simpl | discriminate].
  apply list_lookup_insert_eq. eapply lookup_lt_Some, Ha.
Qed.

Lemma get2_set2_ne g j k j' k' v :
  (j, k) <> (j', k') -> get2 (set2 g j k v) j' k' = get2 g j' k'.
Proof.
  unfold get2, set2. intros Hne.
  destruct (decide (j = j')) as [->|Hj].
  - rewrite list_lookup_alter_eq.
    destruct (g !! j') as [row|]; [simpl | done].
    apply list_lookup_insert_ne. congruence.
  - by rewrite list_lookup_alter_ne.
Qed.

Lemma get2_full h w (v : A) j k :
  (j < h)%nat -> (k < w)%nat -> get2 (full h w v) j k = Some v.
Proof.
  intros Hj Hk. unfold get2, full.
  rewrite lookup_replicate_2 by done. by apply lookup_replicate_2.
Qed.

Lemma get2_Some_lt g h w j k a :
  shape g h w -> get2 g j k = Some a -> (j < h)%nat /\ (k < w)%nat.
Proof.
  unfold get2, shape. intros [Hlen Hrows] Hget.
  destruct (g !! j) as [row|] eqn:Hrow; [|discriminate].
  split.
  - rewrite <- Hlen. eapply lookup_lt_Some, Hrow.
  - rewrite Forall_lookup in Hrows. rewrite <- (Hrows j row Hrow).
    eapply lookup_lt_Some, Hget.
Qed.

Lemma shape_lookup g h w j k :
  shape g h w -> (j < h)%nat -> (k < w)%nat -> is_Some (get2 g j k).
Proof.
  unfold get2, shape. intros [Hlen Hrows] Hj Hk.
  destruct (lookup_lt_is_Some_2 g j) as [row Hrow]; [lia|].
  rewrite Hrow. apply lookup_lt_is_Some_2.
  rewrite Forall_lookup in Hrows. by rewrite (Hrows j row Hrow).
Qed.

Lemma shape_full h w (v : A) : shape (full h w v) h w.
Proof.
  unfold shape, full. split; [apply length_replicate|].
  apply Forall_replicate, length_replicate.
Qed.

Lemma shape_set2 g h w j k v : shape g h w -> shape (set2 g j k v) h w.
Proof.
  unfold shape, set2. intros [Hlen Hrows]. split.
  - by rewrite length_alter.
  - apply Forall_alter; [done|]. intros row _ Hrow. by rewrite length_insert.
Qed.
End GridFacts.

(** ** Folds that touch a view once *)

Section Folds.
Context {S X V : Type} (view : S -> V) (step : S -> X -> S).

Lemma foldl_untouched (l : list X) :
  (forall s y, y ∈ l -> view (step s y) = view s) ->
  forall s, view (foldl step s l) = view s.
Proof.
  induction l as [|y l IH]; intros Hl s; simpl; [done|].
  rewrite IH.
  - apply Hl. left.
  - intros s' y' Hy'. apply Hl. by right.
Qed.

Lemma foldl_touched_once (upd : V -> V) (l1 l2 : list X) (x : X) :
  (forall s y, y ∈ l1 ++ l2 -> view (step s y) = view s) ->
  (forall s, view (step s x) = upd (view s)) ->
  forall s, view (foldl step s (l1 ++ x :: l2)) = upd (view s).
Proof.
  intros Hrest Hx s. rewrite foldl_app. simpl.
  rewrite foldl_untouched.
  - rewrite Hx. f_equal. apply foldl_untouched.
    intros s' y Hy. apply Hrest, elem_of_app. by left.
  - intros s' y Hy. apply Hrest, elem_of_app. by right.
Qed.
End Folds.

Lemma seq_split (k n : nat) :
  (k < n)%nat -> seq 0 n = seq 0 k ++ k :: seq (Datatypes.S k) (n - Datatypes.S k).
Proof.
  intros Hk. replace n with (k + Datatypes.S (n - Datatypes.S k))%nat at 1 by lia.
  by rewrite seq_app.
Qed.

Lemma seq_split_other (k n y : nat) :
  y ∈ seq 0 k ++ seq (Datatypes.S k) (n - Datatypes.S k) -> y <> k.
Proof. rewrite elem_of_app, !elem_of_seq. lia. Qed.

(** ** The evaluator, cell by cell *)

Section EvaluatorFacts.
Context {F : Type} `{PyFloat F}.
Implicit Types (C : list (list (complex F))) (st : arrays F).

Lemma visit_cell_eq C i j k st :
  cell C (visit C i j k st) j k = cell_advance i <$> cell C st j k.
Proof.
  unfold cell, visit, cell_advance, cell_step.
  destruct (get2 C j k) as [c|] eqn:Hc; [|done].
  destruct (get2 (Zs st) j k) as [z|] eqn:Hz; simpl; [|by rewrite Hz].
  destruct (get2 (div_time st) j k) as [d|] eqn:Hd; simpl; [|by rewrite Hz, Hd].
  destruct (d =? 0); [|by rewrite Hz, Hd].
  destruct (escaped _); simpl.
  - by rewrite !get2_set2_eq by eauto.
  - by rewrite get2_set2_eq, Hd by eauto.
Qed.

Lemma visit_cell_ne C i j k j' k' st :
  (j, k) <> (j', k') -> cell C (visit C i j k st) j' k' = cell C st j' k'.
Proof.
  intros Hne. unfold cell, visit.
  destruct (get2 C j k) as [c|]; [|done].
  destruct (get2 (Zs st) j k) as [z|]; [|done].
  destruct (get2 (div_time st) j k) as [d|]; [|done].
  destruct (d =? 0); [|done].
  destruct (escaped _); simpl; by rewrite !get2_set2_ne by done.
Qed.

Lemma sweep_row_cell_eq C i w st j k :
  (k < w)%nat -> cell C (sweep_row C i w st j) j k = cell_advance i <$> cell C st j k.
Proof.
  intros Hk. unfold sweep_row. rewrite (seq_split k w Hk).
  apply (foldl_touched_once (fun st => cell C st j k)).
  - intros s y Hy. apply visit_cell_ne.
    apply seq_split_other in Hy. congruence.
  - intros s. apply visit_cell_eq.
Qed.

Lemma sweep_row_cell_ne C i w st j j' k :
  j <> j' -> cell C (sweep_row C i w st j) j' k = cell C st j' k.
Proof.
  intros Hj. unfold sweep_row.
  apply (foldl_untouched (fun st => cell C st j' k)).
  intros s y _. apply visit_cell_ne. congruence.
Qed.

Lemma sweep_cell C h w st i j k :
  (j < h)%nat -> (k < w)%nat ->
  cell C (sweep C h w st i) j k = cell_advance i <$> cell C st j k.
Proof.
  intros Hj Hk. unfold sweep. rewrite (seq_split j h Hj).
  apply (foldl_touched_once (fun st => cell C st j k)).
  - intros s y Hy. apply sweep_row_cell_ne.
    by apply seq_split_other in Hy.
  - intros s. by apply sweep_row_cell_eq.
Qed.

Lemma sweeps_cell C h w l st j k :
  (j < h)%nat -> (k < w)%nat ->
  cell C (foldl (sweep C h w) st l) j k = cell_finish l <$> cell C st j k.
Proof.
  intros Hj Hk. revert st.
  induction l as [|i l IH]; intros st; simpl.
  - by destruct (cell C st j k) as [[c zd]|].
  - rewrite IH, sweep_cell by done.
    by destruct (cell C st j k) as [[c zd]|].
Qed.

Lemma iterate_cell C h w max_iter st j k :
  (j < h)%nat -> (k < w)%nat ->
  cell C (iterate C h w max_iter st) j k = cell_finish (range max_iter) <$> cell C st j k.
Proof. apply sweeps_cell. Qed.
End EvaluatorFacts.

(** ** Shapes and the result of a call *)

Section CallFacts.
Context {F : Type} `{PyFloat F}.
Implicit Types (C : list (list (complex F))) (st : arrays F).

Lemma visit_shape C i j k h w st :
  well_shaped h w st -> well_shaped h w (visit C i j k st).
Proof.
  intros [HZ Hd]. unfold visit.
  repeat case_match; try done; split; simpl; auto using @shape_set2.
Qed.

Lemma foldl_invariant {S X : Type} (P : S -> Prop) (step : S -> X -> S) (l : list X) :
  (forall s x, P s -> P (step s x)) -> forall s, P s -> P (foldl step s l).
Proof. intros Hstep. induction l as [|x l IH]; simpl; auto. Qed.

Lemma iterate_shape C h w max_iter st :
  well_shaped h w st -> well_shaped h w (iterate C h w max_iter st).
Proof.
  unfold iterate, sweep, sweep_row.
  apply foldl_invariant. intros s i.
  apply foldl_invariant. intros s' j.
  apply foldl_invariant. intros s'' k. apply visit_shape.
Qed.

Lemma linspace_Ok (start stop : F) (num : Z) :
  0 <= num ->
  exists l, linspace start stop num = Ok l /\ length l = Z.to_nat num.
Proof.
  intros Hnum. unfold linspace.
  destruct (Z.ltb_spec num 0) as [?|_]; [lia|].
  eexists. split; [done|].
  assert (Harr : length (if 0 <? num - 1
                         then (fun i => fadd start (fmul (of_int i) (fdiv (fsub stop start) (of_int (num - 1))))) <$> range num
                         else replicate (Z.to_nat num) start) = Z.to_nat num).
  { destruct (0 <? num - 1).
    - unfold range. by rewrite length_fmap, length_seqZ.
    - apply length_replicate. }
  destruct (1 <? num); [rewrite length_insert|]; exact Harr.
Qed.

Lemma linspace_Raise (start stop : F) (num : Z) :
  num < 0 -> linspace start stop num = Raise ValueError.
Proof.
  intros Hnum. unfold linspace.
  destruct (Z.ltb_spec num 0) as [_|?]; [done|lia].
Qed.



Lemma shape_sample_grid (x y : list F) :
  shape (sample_grid x y) (length y) (length x).
Proof.
  unfold shape, sample_grid. split; [by rewrite length_fmap|].
  apply Forall_fmap, Forall_forall. intros yj _. simpl. by rewrite length_fmap.
Qed.

Lemma sample_points_Ok (h w : Z) (x0 x1 y0 y1 : F) :
  0 <= h -> 0 <= w ->
  exists C, sample_points h w x0 x1 y0 y1 = Ok C /\ shape C (Z.to_nat h) (Z.to_nat w).
Proof.
  intros Hh Hw. unfold sample_points.
  destruct (linspace_Ok x0 x1 w Hw) as (x & -> & Hx).
  destruct (linspace_Ok y0 y1 h Hh) as (y & -> & Hy).
  eexists. split; [done|]. rewrite <- Hx, <- Hy. apply shape_sample_grid.
Qed.

(** A call with non-negative sizes returns an array of shape [(h, w)] whose
    entry at [(j, k)] is what the loop, run on that cell alone, leaves in
    [div_time]. *)
Lemma mandelbrot_cells (h w : Z) (x0 x1 y0 y1 : F) (max_iter : Z) :
  0 <= h -> 0 <= w ->
  exists C g,
    sample_points h w x0 x1 y0 y1 = Ok C /\
    mandelbrot h w x0 x1 y0 y1 max_iter = Ok g /\
    shape C (Z.to_nat h) (Z.to_nat w) /\
    shape g (Z.to_nat h) (Z.to_nat w) /\
    forall j k c, get2 C j k = Some c ->
      get2 g j k = Some (cell_run c (czero, 0) (range max_iter)).2.
Proof.
  intros Hh Hw.
  destruct (sample_points_Ok h w x0 x1 y0 y1 Hh Hw) as (C & HC & HshC).
  unfold mandelbrot. rewrite HC. simpl.
  set (st0 := Arrays (full (Z.to_nat h) (Z.to_nat w) czero) (full (Z.to_nat h) (Z.to_nat w) 0)).
  assert (Hst0 : well_shaped (Z.to_nat h) (Z.to_nat w) st0).
  { split; apply shape_full. }
  exists C, (div_time (iterate C (Z.to_nat h) (Z.to_nat w) max_iter st0)).
  split; [done|]. split; [done|]. split; [done|]. split.
  - apply (iterate_shape C _ _ max_iter st0 Hst0).
  - intros j k c Hc.
    destruct (get2_Some_lt _ _ _ _ _ _ HshC Hc) as [Hj Hk].
    pose proof (iterate_cell C _ _ max_iter st0 j k Hj Hk) as Hcell.
    unfold cell in Hcell. rewrite Hc in Hcell.
    unfold st0 in Hcell at 2 3. simpl in Hcell.
    rewrite !get2_full in Hcell by done. simpl in Hcell.
    destruct (get2 (Zs _) j k) as [z|]; [|done].
    destruct (get2 (div_time _) j k) as [d|]; [|done].
    unfold cell_finish in Hcell. simpl in Hcell. by inversion Hcell.
Qed.
End CallFacts.

(** ** One cell *)

Lemma int32_small (i : Z) : 0 <= i < 2 ^ 31 -> int32 i = i.
Proof. intros Hi. unfold int32. rewrite Z.mod_small; lia. Qed.

Lemma int32_le (i : Z) : 0 <= i -> int32 i <= i.
Proof.
  intros Hi. unfold int32.
  pose proof (Z.mod_le (i + 2 ^ 31) (2 ^ 32)). lia.
Qed.

Lemma int32_lower (i : Z) : - 2 ^ 31 <= int32 i.
Proof.
  unfold int32. pose proof (Z.mod_pos_bound (i + 2 ^ 31) (2 ^ 32)). lia.
Qed.

Section CellFacts.
Context {F : Type} `{PyFloat F}.
Implicit Types (c z : complex F) (d i : Z) (l : list Z).

Lemma cell_run_cons c (zd : complex F * Z) i l :
  cell_run c zd (i :: l) = cell_run c (cell_step c zd i) l.
Proof. reflexivity. Qed.

Lemma cell_step_frozen c z d i : d <> 0 -> cell_step c (z, d) i = (z, d).
Proof.
  intros Hd. unfold cell_step.
  destruct (Z.eqb_spec d 0) as [?|_]; done.
Qed.

(** Once [div_time] is non-zero the cell is left alone. *)
Lemma cell_run_frozen c z d l : d <> 0 -> cell_run c (z, d) l = (z, d).
Proof.
  intros Hd. induction l as [|i l IH]; [done|].
  by rewrite cell_run_cons, cell_step_frozen.
Qed.

(** The recorded value is the initial one or the stored image of one of the
    loop indices. *)
Lemma cell_run_value c l :
  forall zd, (cell_run c zd l).2 = zd.2 \/ exists i, i ∈ l /\ (cell_run c zd l).2 = int32 i.
Proof.
  induction l as [|i l IH]; intros [z d]; [by left|].
  rewrite cell_run_cons.
  destruct (IH (cell_step c (z, d) i)) as [Heq|(i' & Hi' & Heq)].
  - rewrite Heq. unfold cell_step.
    destruct (d =? 0); [|by left]. simpl.
    destruct (escaped _); [|by left].
    right. exists i. split; [left|done].
  - right. exists i'. split; [by right|done].
Qed.

(** While the orbit of [c] stays within the escape radius, the cell holds
    the orbit and [div_time] stays [0]. *)
Lemma cell_run_bounded c l :
  forall m,
    (forall n, (m <= n < m + length l)%nat -> escaped (orbit c (Datatypes.S n)) = false) ->
    cell_run c (orbit c m, 0) l = (orbit c (m + length l), 0).
Proof.
  induction l as [|i l IH]; intros m Hb.
  - simpl. by rewrite Nat.add_0_r.
  - rewrite cell_run_cons.
    assert (Hstep : cell_step c (orbit c m, 0) i = (orbit c (Datatypes.S m), 0)).
    { pose proof (Hb m ltac:(simpl; lia)) as Hm. simpl in Hm.
      unfold cell_step. simpl. by rewrite Hm. }
    rewrite Hstep, (IH (Datatypes.S m)).
    + f_equal. f_equal. simpl. lia.
    + intros n Hn. apply Hb. simpl. lia.
Qed.

Lemma cell_run_never_escapes c l :
  (forall n, escaped (orbit c n) = false) ->
  (cell_run c (czero, 0) l).2 = 0.
Proof.
  intros Hb. change czero with (orbit c 0).
  by rewrite cell_run_bounded.
Qed.
End CellFacts.

(** *** binary64: equality *)

Lemma SFeqb_true (f1 f2 : SpecFloat.spec_float) :
  SpecFloat.SFeqb f1 f2 = true ->
  f1 = f2 \/ exists s1 s2, f1 = SpecFloat.S754_zero s1 /\ f2 = SpecFloat.S754_zero s2.
Proof.
  unfold SpecFloat.SFeqb, SpecFloat.SFcompare.
  destruct f1 as [s1| s1| |s1 m1 e1], f2 as [s2| s2| |s2 m2 e2];
    try discriminate; try (destruct s1; discriminate); try (destruct s2; discriminate).
  - intros _. right. eauto.
  - destruct s1, s2; try discriminate; by left.
  - destruct s1, s2; try discriminate;
      destruct (Z.compare_spec e1 e2) as [->| |]; try discriminate;
      rewrite Pos.compare_cont_spec; simpl;
      destruct (Pos.compare_spec m1 m2) as [->| |]; try discriminate; by left.
Qed.

Lemma feqb_zero (x : float) :
  PrimFloat.eqb x 0 = true -> x = 0%float \/ x = (-0)%float.
Proof.
  rewrite FloatAxioms.eqb_spec. intros Heq.
  apply SFeqb_true in Heq as [Heq|(s1 & s2 & Heq & _)].
  - left. by apply FloatAxioms.Prim2SF_inj.
  - rewrite <- (FloatAxioms.SF2Prim_Prim2SF x), Heq.
    destruct s1; [by right|by left].
Qed.

Lemma feqb_nonzero (x y : float) :
  PrimFloat.eqb y 0 = false -> PrimFloat.eqb x y = true -> x = y.
Proof.
  rewrite !FloatAxioms.eqb_spec. intros Hy Heq.
  apply SFeqb_true in Heq as [Heq|(s1 & s2 & _ & Heq)].
  - by apply FloatAxioms.Prim2SF_inj.
  - rewrite Heq in Hy. by destruct s2.
Qed.

(** ** The evaluator: results of a call *)

Section Results.
Context {F : Type} `{PyFloat F}.

Lemma mandelbrot_Ok_sizes (h w : Z) (x0 x1 y0 y1 : F) (max_iter : Z) g :
  mandelbrot h w x0 x1 y0 y1 max_iter = Ok g -> 0 <= h /\ 0 <= w.
Proof.
  unfold mandelbrot, sample_points. intros Hg.
  destruct (Z.le_gt_cases 0 w) as [Hw|Hw].
  - split; [|done].
    destruct (Z.le_gt_cases 0 h) as [Hh|Hh]; [done|].
    rewrite (linspace_Raise y0 y1 h) in Hg by lia.
    by destruct (linspace x0 x1 w).
  - by rewrite (linspace_Raise x0 x1 w) in Hg by lia.
Qed.

Lemma mandelbrot_entry (h w : Z) (x0 x1 y0 y1 : F) (max_iter : Z) C g j k c :
  sample_points h w x0 x1 y0 y1 = Ok C ->
  mandelbrot h w x0 x1 y0 y1 max_iter = Ok g ->
  get2 C j k = Some c ->
  get2 g j k = Some (cell_run c (czero, 0) (range max_iter)).2.
Proof.
  intros HC Hg Hc.
  destruct (mandelbrot_Ok_sizes _ _ _ _ _ _ _ _ Hg) as [Hh Hw].
  destruct (mandelbrot_cells h w x0 x1 y0 y1 max_iter Hh Hw)
    as (C' & g' & HC' & Hg' & _ & _ & Hcells).
  rewrite HC in HC'. rewrite Hg in Hg'.
  injection HC' as <-. injection Hg' as <-. by apply Hcells.
Qed.

(** C10: for [max_iter >= 1] every entry of the returned array is at most
    [max_iter - 1], so [max_iter] itself is never returned: an entry is the
    initial [0] or the loop index of an escape, as stored in the [int32]
    cell.  It is at least [0] whenever the loop indices fit the cell type
    ([max_iter <= 2^31]). *)
Theorem mandelbrot_entries_range (h w : Z) (x0 x1 y0 y1 : F) (max_iter : Z) g j k e :
  1 <= max_iter ->
  mandelbrot h w x0 x1 y0 y1 max_iter = Ok g ->
  get2 g j k = Some e ->
  e <= max_iter - 1 /\ e <> max_iter /\ (max_iter <= 2 ^ 31 -> 0 <= e).
Proof.
  intros Hmax Hg He.
  destruct (mandelbrot_Ok_sizes _ _ _ _ _ _ _ _ Hg) as [Hh Hw].
  destruct (mandelbrot_cells h w x0 x1 y0 y1 max_iter Hh Hw)
    as (C & g' & HC & Hg' & HshC & Hshg & _).
  rewrite Hg in Hg'. injection Hg' as <-.
  destruct (get2_Some_lt _ _ _ _ _ _ Hshg He) as [Hj Hk].
  destruct (shape_lookup _ _ _ j k HshC Hj Hk) as [c Hc].
  rewrite (mandelbrot_entry _ _ _ _ _ _ _ _ _ _ _ _ HC Hg Hc) in He.
  injection He as <-.
  destruct (cell_run_value c (range max_iter) (czero, 0)) as [->|(i & Hi & ->)].
  - simpl. lia.
  - unfold range in Hi. apply elem_of_seqZ in Hi.
    pose proof (int32_le i). split; [lia|]. split; [lia|].
    intros Hfit. rewrite int32_small; lia.
Qed.

(** C6, as the code has it: the bounds are not checked.  Whatever their
    order and whatever [max_iter], a call with non-negative sizes returns an
    array of shape [(h, w)]. *)
Theorem mandelbrot_returns_grid (h w : Z) (x0 x1 y0 y1 : F) (max_iter : Z) :
  0 <= h -> 0 <= w ->
  exists g, mandelbrot h w x0 x1 y0 y1 max_iter = Ok g /\
            shape g (Z.to_nat h) (Z.to_nat w).
Proof.
  intros Hh Hw.
  destruct (mandelbrot_cells h w x0 x1 y0 y1 max_iter Hh Hw)
    as (C & g & _ & Hg & _ & Hshg & _).
  by exists g.
Qed.

(** The only failure of a call: a negative size is refused by [linspace]. *)
Lemma mandelbrot_negative_size (h w : Z) (x0 x1 y0 y1 : F) (max_iter : Z) :
  h < 0 \/ w < 0 -> mandelbrot h w x0 x1 y0 y1 max_iter = Raise ValueError.
Proof.
  intros Hneg. unfold mandelbrot, sample_points.
  destruct (Z.le_gt_cases 0 w) as [Hw|Hw].
  - destruct (linspace_Ok x0 x1 w Hw) as (x & -> & _).
    rewrite (linspace_Raise y0 y1 h); [done|lia].
  - by rewrite (linspace_Raise x0 x1 w) by lia.
Qed.
End Results.

(** The bound on the 3 x 3 grid over [-1, 1]^2 with 50 iterations, at the
    entry of row 1, column 2. *)
Lemma mandelbrot_entries_range_witness :
  1 <= 50 /\
  mandelbrot 3 3 (-1)%float 1%float (-1)%float 1%float 50
    = Ok [[2; 0; 1]; [0; 0; 2]; [2; 0; 1]] /\
  (2 <= 50 - 1 /\ 2 <> 50 /\ (50 <= 2 ^ 31 -> 0 <= 2)).
Proof.
  split; [lia|]. split; [vm_compute; reflexivity|].
  apply (mandelbrot_entries_range 3 3 (-1)%float 1%float (-1)%float 1%float 50
           [[2; 0; 1]; [0; 0; 2]; [2; 0; 1]] 1%nat 2%nat 2).
  - lia.
  - vm_compute; reflexivity.
  - reflexivity.
Defined.

(** C6, the claim as stated, fails: bounds in the wrong order
    ([x_min = 1 > 0 = x_max], [y_min = 1 > 0 = y_max]) are not refused; the
    call returns an array. *)
Lemma mandelbrot_accepts_unordered_bounds :
  fgt 0%float 1%float = false /\
  mandelbrot 2 2 1%float 0%float 1%float 0%float 50 = Ok [[1; 0]; [2; 0]].
Proof. split; vm_compute; reflexivity. Qed.

(** The same call, as an instance of the general statement. *)
Lemma mandelbrot_returns_grid_witness :
  0 <= 2 /\ 0 <= 2 /\
  exists g, mandelbrot 2 2 1%float 0%float 1%float 0%float 50 = Ok g /\
            shape g (Z.to_nat 2) (Z.to_nat 2).
Proof.
  split; [lia|]. split; [lia|].
  apply (mandelbrot_returns_grid 2 2 1%float 0%float 1%float 0%float 50); lia.
Defined.

(** ** The evaluator on binary64: the origin and the point 3 *)

Section Binary64.
Implicit Types (c : complex float).

Lemma ceq_origin c :
  ceq c (Complex 0%float 0%float) = true ->
  (re c = 0%float \/ re c = (-0)%float) /\ (im c = 0%float \/ im c = (-0)%float).
Proof.
  unfold ceq. simpl. intros [Hre Him]%andb_true_iff.
  split; by apply feqb_zero.
Qed.

Lemma ceq_three c :
  ceq c (Complex 3%float 0%float) = true ->
  re c = 3%float /\ (im c = 0%float \/ im c = (-0)%float).
Proof.
  unfold ceq. simpl. intros [Hre Him]%andb_true_iff.
  split; [by apply feqb_nonzero|by apply feqb_zero].
Qed.

Lemma orbit_origin c n :
  ceq c (Complex 0%float 0%float) = true -> orbit c n = Complex 0%float 0%float.
Proof.
  intros [Hre Him]%ceq_origin. destruct c as [a b]. simpl in Hre, Him.
  induction n as [|n IH]; [reflexivity|].
  simpl. rewrite IH.
  destruct Hre as [->| ->], Him as [->| ->]; reflexivity.
Qed.

(** C3, as the code has it: a cell that samples [0+0j] never escapes, and
    the value returned for it is [0], the initial content of [div_time],
    for every [max_iter]. *)
Theorem origin_cell_records_zero
    (h w : Z) (x0 x1 y0 y1 : float) (max_iter : Z) C g (j k : nat) c :
  sample_points h w x0 x1 y0 y1 = Ok C ->
  mandelbrot h w x0 x1 y0 y1 max_iter = Ok g ->
  get2 C j k = Some c ->
  ceq c (Complex 0%float 0%float) = true ->
  (forall n, escaped (orbit c n) = false) /\ get2 g j k = Some 0.
Proof.
  intros HC Hg Hc Hzero.
  assert (Hb : forall n, escaped (orbit c n) = false).
  { intros n. by rewrite orbit_origin. }
  split; [done|].
  rewrite (mandelbrot_entry _ _ _ _ _ _ _ _ _ _ _ _ HC Hg Hc).
  by rewrite cell_run_never_escapes.
Qed.

(** C5, as the code has it: a cell that samples [3+0j] holds [1] in the
    returned array when the loop reaches index 1, that is for
    [max_iter >= 2]. *)
Theorem three_cell_records_one
    (h w : Z) (x0 x1 y0 y1 : float) (max_iter : Z) C g (j k : nat) c :
  2 <= max_iter ->
  sample_points h w x0 x1 y0 y1 = Ok C ->
  mandelbrot h w x0 x1 y0 y1 max_iter = Ok g ->
  get2 C j k = Some c ->
  ceq c (Complex 3%float 0%float) = true ->
  get2 g j k = Some 1.
Proof.
  intros Hmax HC Hg Hc [Hre Him]%ceq_three.
  rewrite (mandelbrot_entry _ _ _ _ _ _ _ _ _ _ _ _ HC Hg Hc).
  unfold range. rewrite seqZ_cons by lia. rewrite seqZ_cons by lia.
  rewrite !cell_run_cons.
  destruct c as [a b]. simpl in Hre, Him. subst a.
  assert (Hsteps : cell_step (Complex 3%float b)
                     (cell_step (Complex 3%float b) (czero, 0) 0) (Z.succ 0)
                   = (Complex 12%float 0%float, 1)).
  { destruct Him as [->| ->]; vm_compute; reflexivity. }
  rewrite Hsteps. by rewrite cell_run_frozen.
Qed.

(** With [max_iter = 1] the escape of [3+0j] is recorded as [0]. *)
Lemma three_cell_one_iteration :
  mandelbrot 1 1 3%float 3%float 0%float 0%float 1 = Ok [[0]].
Proof. vm_compute. reflexivity. Qed.
End Binary64.

(** C3, the claim as stated, fails: on the 3 x 3 grid over [-1, 1]^2 the
    middle cell samples [0+0j], and with [max_iter = 50] its value is [0],
    not [50]. *)
Lemma origin_cell_is_not_max_iter :
  exists C g,
    sample_points 3 3 (-1)%float 1%float (-1)%float 1%float = Ok C /\
    mandelbrot 3 3 (-1)%float 1%float (-1)%float 1%float 50 = Ok g /\
    get2 C 1 1 = Some (Complex 0%float 0%float) /\
    get2 g 1 1 = Some 0 /\
    get2 g 1 1 <> Some 50.
Proof.
  eexists. eexists.
  split; [vm_compute; reflexivity|].
  split; [vm_compute; reflexivity|].
  split; [reflexivity|]. split; [reflexivity|]. discriminate.
Qed.

(** The same grid, as an instance of the general statement. *)
Lemma origin_cell_records_zero_witness :
  exists C g,
    sample_points 3 3 (-1)%float 1%float (-1)%float 1%float = Ok C /\
    mandelbrot 3 3 (-1)%float 1%float (-1)%float 1%float 50 = Ok g /\
    get2 C 1 1 = Some (Complex 0%float 0%float) /\
    ceq (Complex 0%float 0%float) (Complex 0%float 0%float) = true /\
    (forall n, escaped (orbit (Complex 0%float 0%float) n) = false) /\
    get2 g 1 1 = Some 0.
Proof.
  eexists. eexists.
  split; [vm_compute; reflexivity|].
  split; [vm_compute; reflexivity|].
  split; [reflexivity|]. split; [reflexivity|].
  eapply (origin_cell_records_zero 3 3 (-1)%float 1%float (-1)%float 1%float 50).
  - vm_compute; reflexivity.
  - vm_compute; reflexivity.
  - reflexivity.
  - reflexivity.
Defined.

(** The 3 x 3 grid over [2, 4] x [-1, 1] samples [3+0j] in the middle. *)
Lemma three_cell_records_one_witness :
  exists C g,
    2 <= 50 /\
    sample_points 3 3 2%float 4%float (-1)%float 1%float = Ok C /\
    mandelbrot 3 3 2%float 4%float (-1)%float 1%float 50 = Ok g /\
    get2 C 1 1 = Some (Complex 3%float 0%float) /\
    ceq (Complex 3%float 0%float) (Complex 3%float 0%float) = true /\
    get2 g 1 1 = Some 1.
Proof.
  eexists. eexists.
  split; [lia|].
  split; [vm_compute; reflexivity|].
  split; [vm_compute; reflexivity|].
  split; [reflexivity|]. split; [reflexivity|].
  eapply (three_cell_records_one 3 3 2%float 4%float (-1)%float 1%float 50).
  - lia.
  - vm_compute; reflexivity.
  - vm_compute; reflexivity.
  - reflexivity.
  - reflexivity.
Defined.

(** C5, the claim as stated, fails for [max_iter = 1]: on the same grid the
    loop runs its escape test on the middle cell at index 0, the test
    succeeds there, and the value recorded is the index, [0], not [1]. *)
Lemma three_cell_single_iteration_records_zero :
  exists C g,
    sample_points 3 3 2%float 4%float (-1)%float 1%float = Ok C /\
    mandelbrot 3 3 2%float 4%float (-1)%float 1%float 1 = Ok g /\
    get2 C 1 1 = Some (Complex 3%float 0%float) /\
    escaped (orbit (Complex 3%float 0%float) 1) = true /\
    get2 g 1 1 = Some 0 /\
    get2 g 1 1 <> Some 1.
Proof.
  eexists. eexists.
  split; [vm_compute; reflexivity|].
  split; [vm_compute; reflexivity|].
  split; [reflexivity|]. split; [reflexivity|].
  split; [reflexivity|]. discriminate.
Qed.

(** ** The click handler *)

Section ControllerFacts.
Context {F : Type} `{PyFloat F}.
Implicit Types (st : session F) (a : interaction F).

(** The two signs: a positive slider value zooms in by its inverse, a
    negative one zooms out by its absolute value. *)
Lemma zoom_multiplier_positive (zf : Z) :
  0 < zf -> zoom_multiplier zf = fdiv (of_int 1) (of_int zf).
Proof.
  intros Hzf. unfold zoom_multiplier.
  destruct (Z.ltb_spec 0 zf); [done|lia].
Qed.

Lemma zoom_multiplier_negative (zf : Z) :
  zf < 0 -> zoom_multiplier zf = of_int (Z.abs zf).
Proof.
  intros Hzf. unfold zoom_multiplier.
  destruct (Z.ltb_spec 0 zf); [lia|done].
Qed.

(** The value [0] falls into the branch of the negative values. *)
Lemma zoom_multiplier_at_zero : zoom_multiplier 0 = of_int 0.
Proof. reflexivity. Qed.

Lemma interact_total_zoom st a :
  zoom_pending st = false ->
  zoom_pending (interact st a) = false /\
  total_zoom (interact st a) = fmul (total_zoom st) (zoom_multiplier (slider a)).
Proof.
  intros Hpending. unfold interact, on_canvas, serve_zoom. simpl.
  rewrite Hpending. simpl. done.
Qed.

Lemma interact_viewport st a :
  zoom_pending st = false ->
  let st' := recenter_and_zoom (set_zoom_factor st (slider a)) (dot_x a) (dot_y a) (at_time a) in
  x_min (interact st a) = x_min st' /\ x_max (interact st a) = x_max st' /\
  y_min (interact st a) = y_min st' /\ y_max (interact st a) = y_max st'.
Proof.
  intros Hpending. unfold interact, on_canvas, serve_zoom. simpl.
  rewrite Hpending. simpl. done.
Qed.

(** The running product: after a sequence of interactions whose renders
    return, [total_zoom] is the initial value multiplied, in order, by the
    multiplier of each one. *)
Lemma interactions_total_zoom (l : list (interaction F)) :
  forall st,
    zoom_pending st = false ->
    zoom_pending (interactions st l) = false /\
    total_zoom (interactions st l)
      = foldl fmul (total_zoom st) ((fun a => zoom_multiplier (slider a)) <$> l).
Proof.
  induction l as [|a l IH]; intros st Hpending; [done|].
  destruct (interact_total_zoom st a Hpending) as [Hp Ht].
  unfold interactions in *. simpl. rewrite <- Ht. by apply IH.
Qed.
End ControllerFacts.


(** *** binary64: the slider at 0, and deep zooms *)

(** C2 at the slider value [0]: the multiplier is [abs(0) = 0]; the handler
    neither refuses the value nor treats it as 1, and the multiplier is not
    positive. *)
Theorem zoom_multiplier_zero_binary64 :
  zoom_multiplier 0 = 0%float /\
  fgt (zoom_multiplier 0) 0%float = false /\
  zoom_multiplier 0 <> 1%float.
Proof.
  split; [reflexivity|]. split; [reflexivity|].
  intros Heq. apply (f_equal (fun x => PrimFloat.eqb x 0)) in Heq.
  vm_compute in Heq. discriminate.
Qed.

(** C1 at the slider value [0]: a click on the initial, ordered viewport
    collapses it to the clicked point. *)
Theorem zero_zoom_collapses_viewport :
  let st := set_zoom_factor (initial_session 0%float) 0 in
  let st' := recenter_and_zoom st 800%float 450%float 1%float in
  ordered st = true /\
  x_min st' = (-0.75)%float /\ x_max st' = (-0.75)%float /\
  y_min st' = 0%float /\ y_max st' = 0%float /\
  ordered st' = false.
Proof. vm_compute. repeat split. Qed.

(** C7 at the slider value [0]: one interaction takes [total_zoom] from 1.0
    to 0.0. *)
Theorem zero_zoom_zeroes_total_zoom :
  let st := interactions (initial_session 0%float)
              [Interaction 0 800%float 450%float 1%float] in
  total_zoom (initial_session 0%float) = 1%float /\
  total_zoom st = 0%float /\
  fgt (total_zoom st) 0%float = false.
Proof. vm_compute. repeat split. Qed.

(** On binary64 the same happens without the value [0], beyond the
    resolution of the format: six clicks on the centre at the largest zoom
    leave no width, and after 108 of them [total_zoom] has underflowed. *)
Lemma deep_zoom_collapses_viewport :
  let st := interactions (initial_session 0%float)
              (replicate 6 (Interaction 1000 800%float 450%float 1%float)) in
  x_min st = x_max st /\ fgt (x_max st) (x_min st) = false.
Proof. vm_compute. repeat split. Qed.

Lemma deep_zoom_underflows_total_zoom :
  let st := interactions (initial_session 0%float)
              (replicate 108 (Interaction 1000 800%float 450%float 1%float)) in
  total_zoom st = 0%float.
Proof. vm_compute. reflexivity. Qed.

(** On binary64, for the initial viewport, the click on the centre with the
    slider at 1 returns the very same bounds. *)
Lemma center_click_initial_binary64 :
  let st := set_zoom_factor (initial_session 0%float) 1 in
  let st' := recenter_and_zoom st 800%float 450%float 1%float in
  x_min st' = x_min st /\ x_max st' = x_max st /\
  y_min st' = y_min st /\ y_max st' = y_max st.
Proof. vm_compute. repeat split. Qed.


(** ** The click handler in exact arithmetic *)

Section Exact.
Local Open Scope Q_scope.
Implicit Types (st : session Q).

Lemma fgt_exact (a b : Q) : fgt a b = true <-> b < a.
Proof.
  simpl. rewrite negb_true_iff, <- not_true_iff_false, Qle_bool_iff.
  split; [apply Qnot_le_lt|apply Qlt_not_le].
Qed.

Lemma ordered_exact st :
  ordered st = true <-> x_min st < x_max st /\ y_min st < y_max st.
Proof. unfold ordered. by rewrite andb_true_iff, !fgt_exact. Qed.

(** Every slider value other than [0] gives a positive multiplier. *)
Lemma zoom_multiplier_exact_pos (zf : Z) :
  zf <> 0%Z -> 0 < zoom_multiplier zf.
Proof.
  intros Hzf. unfold zoom_multiplier.
  destruct (Z.ltb_spec 0 zf) as [Hpos|Hneg]; simpl.
  - apply Qlt_shift_div_l.
    + change 0 with (inject_Z 0). rewrite <- Zlt_Qlt. lia.
    + by rewrite Qmult_0_l.
  - change 0 with (inject_Z 0). rewrite <- Zlt_Qlt. lia.
Qed.

(** Away from the slider value [0] the handler keeps an ordered viewport
    ordered, for every position of the dot. *)
Lemma recenter_preserves_order_exact st (x y now : Q) :
  zoom_factor st <> 0%Z ->
  ordered st = true ->
  ordered (recenter_and_zoom st x y now) = true.
Proof.
  intros Hzf. rewrite !ordered_exact. intros [Hx Hy].
  pose proof (zoom_multiplier_exact_pos _ Hzf) as Hm.
  unfold recenter_and_zoom, click_x, click_y. simpl.
  set (m := zoom_multiplier (zoom_factor st)) in *.
  assert (Hrx : 0 < (x_max st - x_min st) * m) by (apply Qmult_lt_0_compat; lra).
  assert (Hry : 0 < (y_max st - y_min st) * m) by (apply Qmult_lt_0_compat; lra).
  unfold Qdiv. change (/ inject_Z 2) with (1 # 2).
  revert Hrx Hry.
  generalize ((x_max st - x_min st) * m) ((y_max st - y_min st) * m)
             (x * / inject_Z 1600 * (x_max st - x_min st))
             (y * / inject_Z 900 * (y_max st - y_min st)).
  intros rx ry cx cy Hrx Hry. split; lra.
Qed.

(** In exact arithmetic, sliders away from [0] keep [total_zoom] positive
    through any sequence of interactions. *)
Lemma total_zoom_positive_exact (l : list (interaction Q)) :
  forall st,
    zoom_pending st = false ->
    Forall (fun a => slider a <> 0%Z) l ->
    0 < total_zoom st ->
    0 < total_zoom (interactions st l).
Proof.
  induction l as [|a l IH]; intros st Hpending Hl Hpos; [done|].
  inversion Hl as [|? ? Ha Hl']; subst.
  destruct (interact_total_zoom st a Hpending) as [Hp Ht].
  unfold interactions in *. simpl. apply IH; [done|done|].
  rewrite Ht. apply Qmult_lt_0_compat; [done|].
  by apply zoom_multiplier_exact_pos.
Qed.

(** As formulas over the rationals, the two interpolations of an index [k]
    over [a, b], one dividing by the number [n] of pixels and one by
    [n - 1], agree at [k = 0] only. *)
Lemma interpolations_agree_iff (a b : Q) (n k : Z) :
  a < b -> (2 <= n)%Z -> (0 <= k < n)%Z ->
  a + inject_Z k / inject_Z n * (b - a)
    == a + inject_Z k * ((b - a) / inject_Z (n - 1))
  <-> k = 0%Z.
Proof.
  intros Hab Hn Hk.
  assert (HD : ~ inject_Z (n - 1) == 0).
  { change 0 with (inject_Z 0). rewrite inject_Z_injective. lia. }
  assert (HN : ~ inject_Z (n - 1) + 1 == 0).
  { change 1 with (inject_Z 1). rewrite <- inject_Z_plus.
    change 0 with (inject_Z 0). rewrite inject_Z_injective. lia. }
  assert (HnD : inject_Z n == inject_Z (n - 1) + 1).
  { change 1 with (inject_Z 1). rewrite <- inject_Z_plus. f_equiv. lia. }
  rewrite HnD. clear HnD.
  generalize dependent (inject_Z (n - 1)). intros D HD HN.
  split.
  - intros Heq.
    assert (Hprod : inject_Z k * (b - a) == 0).
    { assert (Hdiff : inject_Z k * (b - a)
                == (a + inject_Z k * ((b - a) / D)
                    - (a + inject_Z k / (D + 1) * (b - a))) * (D * (D + 1)))
        by (field; done).
      rewrite Hdiff, Heq. ring. }
    apply Qmult_integral in Hprod as [Hk0|Hba]; [|lra].
    apply (proj1 (inject_Z_injective k 0%Z)). exact Hk0.
  - intros ->. change (inject_Z 0) with 0. field. done.
Qed.

(** As formulas over the rationals, the handler is the identity on the
    viewport for a click on the centre of the canvas, [(800, 450)], with
    the slider at 1: the four bounds are unchanged, and so is the centre,
    which is the clicked point.  This is a statement about the formulas; the
    values binary64 computes are treated further down. *)
Lemma center_click_formula_identity_exact st (now : Q) :
  let st' := recenter_and_zoom (set_zoom_factor st 1) (of_int 800) (of_int 450) now in
  x_min st' == x_min st /\ x_max st' == x_max st /\
  y_min st' == y_min st /\ y_max st' == y_max st /\
  click_x st (of_int 800) == (x_min st + x_max st) / 2 /\
  click_y st (of_int 450) == (y_min st + y_max st) / 2 /\
  (x_min st' + x_max st') / 2 == (x_min st + x_max st) / 2 /\
  (y_min st' + y_max st') / 2 == (y_min st + y_max st) / 2.
Proof.
  unfold recenter_and_zoom, click_x, click_y, zoom_multiplier. simpl.
  unfold Qdiv.
  change (/ inject_Z 2) with (1 # 2). change (/ 2) with (1 # 2).
  change (inject_Z 800 * / inject_Z 1600) with (800 # 1600).
  change (inject_Z 450 * / inject_Z 900) with (450 # 900).
  change (inject_Z 1 * / inject_Z 1) with 1.
  repeat split; lra.
Qed.
End Exact.


(** * The click on the centre, on binary64 *)





(** The handler treats the two axes alike. *)
Lemma recenter_and_zoom_axes {F : Type} `{PyFloat F} (st : session F) (x y now : F) :
  let st' := recenter_and_zoom st x y now in
  let zoom := zoom_multiplier (zoom_factor st) in
  (x_min st', x_max st') = recenter_axis (x_min st) (x_max st) (of_int 1600) x zoom /\
  (y_min st', y_max st') = recenter_axis (y_min st) (y_max st) (of_int 900) y zoom.
Proof. split; reflexivity. Qed.




(** Nor is overflow the only limit.  The viewport whose abscissas are 1 and
    its successor [1 + 2^-52] stays finite, and the same click moves it by
    half of its width. *)
Lemma center_click_thin_viewport :
  let st := Session 1%float 0x1.0000000000001p0%float (-1.25)%float 1.25%float
              (1600, 900) 1 1%float None false false very_low 0%float in
  let st' := recenter_and_zoom (set_zoom_factor st 1) 800%float 450%float 1%float in
  ordered st = true /\
  x_min st' = 0x1.fffffffffffffp-1%float /\
  x_max st' = 1%float /\
  unchanged_within 0x1p-40 (PrimFloat.sub (x_max st) (x_min st)) (x_min st) (x_min st')
  = false.
Proof. vm_compute. repeat split. Qed.

(** * Further properties of the evaluator *)

Section EvaluatorMore.
Context {F : Type} `{PyFloat F}.
Implicit Types (c : complex F).

Lemma cell_run_app c (zd : complex F * Z) (l1 l2 : list Z) :
  cell_run c zd (l1 ++ l2) = cell_run c (cell_run c zd l1) l2.
Proof. unfold cell_run. apply foldl_app. Qed.

(** From index [m >= 1] on, with every index below [2^31], the loop stops
    at the first index whose update leaves the radius. *)
Lemma cell_run_from c (n : nat) :
  forall m : Z,
    1 <= m -> m + Z.of_nat n <= 2 ^ 31 ->
    (cell_run c (orbit c (Z.to_nat m), 0) (seqZ m (Z.of_nat n))).2
    = match List.find (fun i => escaped (orbit c (S (Z.to_nat i)))) (seqZ m (Z.of_nat n)) with
      | Some i => i
      | None => 0
      end.
Proof.
  induction n as [|n IH]; intros m Hm Hfit.
  - by rewrite seqZ_nil.
  - rewrite seqZ_cons by lia. rewrite cell_run_cons. cbn [List.find].
    replace (Z.pred (Z.of_nat (S n))) with (Z.of_nat n) by lia.
    assert (Hstep : cell_step c (orbit c (Z.to_nat m), 0) m
                    = (orbit c (S (Z.to_nat m)),
                       if escaped (orbit c (S (Z.to_nat m))) then int32 m else 0)).
    { reflexivity. }
    rewrite Hstep. destruct (escaped (orbit c (S (Z.to_nat m)))) eqn:Hesc.
    + rewrite int32_small by lia. rewrite cell_run_frozen by lia. done.
    + replace (S (Z.to_nat m)) with (Z.to_nat (Z.succ m)) by lia.
      apply IH; lia.
Qed.

Lemma cell_run_escape_time c (max_iter : Z) :
  max_iter <= 2 ^ 31 ->
  (cell_run c (czero, 0) (range max_iter)).2 = escape_time c max_iter.
Proof.
  intros Hfit. unfold escape_time, range.
  destruct (Z.le_gt_cases max_iter 0) as [Hle|Hgt].
  - by rewrite !seqZ_nil by lia.
  - rewrite (seqZ_cons 0) by lia. rewrite cell_run_cons.
    assert (Hstep : cell_step c (czero, 0) 0 = (orbit c (Z.to_nat 1), 0)).
    { unfold cell_step. simpl. by destruct (escaped _). }
    rewrite Hstep. replace (Z.pred max_iter) with (Z.of_nat (Z.to_nat (max_iter - 1))) by lia.
    change (Z.succ 0) with 1.
    rewrite cell_run_from by lia. by rewrite Z2Nat.id by lia.
Qed.

(** X1 (independence of the cells): the value returned for a cell depends
    on the point it samples and on [max_iter] only.  Two calls, on any two
    grids, return the same value wherever they sample the same point. *)
Theorem same_sample_same_entry
    (h w : Z) (x0 x1 y0 y1 : F) (h' w' : Z) (x0' x1' y0' y1' : F) (max_iter : Z)
    C g C' g' (j k j' k' : nat) c :
  sample_points h w x0 x1 y0 y1 = Ok C ->
  mandelbrot h w x0 x1 y0 y1 max_iter = Ok g ->
  sample_points h' w' x0' x1' y0' y1' = Ok C' ->
  mandelbrot h' w' x0' x1' y0' y1' max_iter = Ok g' ->
  get2 C j k = Some c ->
  get2 C' j' k' = Some c ->
  get2 g j k = get2 g' j' k'.
Proof.
  intros HC Hg HC' Hg' Hc Hc'.
  rewrite (mandelbrot_entry _ _ _ _ _ _ _ _ _ _ _ _ HC Hg Hc).
  by rewrite (mandelbrot_entry _ _ _ _ _ _ _ _ _ _ _ _ HC' Hg' Hc').
Qed.

(** X2 (what the loop records): for [max_iter <= 2^31] the value returned
    for a cell sampling [c] is the first loop index from 1 on after whose
    update [Z] is outside the radius, and 0 when there is none below
    [max_iter].  An escape seen at index 0 is stored as 0 and so is not
    kept: the cell is updated again at index 1. *)
Theorem entry_is_escape_time
    (h w : Z) (x0 x1 y0 y1 : F) (max_iter : Z) C g (j k : nat) c :
  max_iter <= 2 ^ 31 ->
  sample_points h w x0 x1 y0 y1 = Ok C ->
  mandelbrot h w x0 x1 y0 y1 max_iter = Ok g ->
  get2 C j k = Some c ->
  get2 g j k = Some (escape_time c max_iter).
Proof.
  intros Hfit HC Hg Hc.
  rewrite (mandelbrot_entry _ _ _ _ _ _ _ _ _ _ _ _ HC Hg Hc).
  by rewrite cell_run_escape_time.
Qed.

(** X3 (a larger budget refines): raising [max_iter] never changes a cell
    that already holds a non-zero value; only cells holding 0 can change. *)
Theorem larger_budget_keeps_escaped
    (h w : Z) (x0 x1 y0 y1 : F) (m m' : Z) g g' (j k : nat) (e : Z) :
  m <= m' ->
  mandelbrot h w x0 x1 y0 y1 m = Ok g ->
  mandelbrot h w x0 x1 y0 y1 m' = Ok g' ->
  get2 g j k = Some e ->
  e <> 0 ->
  get2 g' j k = Some e.
Proof.
  intros Hm Hg Hg' He Hne.
  destruct (mandelbrot_Ok_sizes _ _ _ _ _ _ _ _ Hg) as [Hh Hw].
  destruct (mandelbrot_cells h w x0 x1 y0 y1 m Hh Hw)
    as (C & g0 & HC & Hg0 & HshC & Hshg & _).
  rewrite Hg in Hg0. injection Hg0 as <-.
  destruct (get2_Some_lt _ _ _ _ _ _ Hshg He) as [Hj Hk].
  destruct (shape_lookup _ _ _ j k HshC Hj Hk) as [c Hc].
  rewrite (mandelbrot_entry _ _ _ _ _ _ _ _ _ _ _ _ HC Hg Hc) in He.
  rewrite (mandelbrot_entry _ _ _ _ _ _ _ _ _ _ _ _ HC Hg' Hc).
  injection He as He. f_equal.
  destruct (Z.le_gt_cases m 0) as [Hle|Hgt].
  { unfold range in He. rewrite seqZ_nil in He by lia. simpl in He. congruence. }
  unfold range in *. replace m' with (m + (m' - m)) by lia.
  rewrite seqZ_app by lia. rewrite cell_run_app.
  destruct (cell_run c (czero, 0) (seqZ 0 m)) as [z d]. simpl in He. subst d.
  by rewrite cell_run_frozen.
Qed.

(** X5 (a budget of one): with [max_iter <= 1] every entry is 0, whatever
    the viewport; an escape at the only index, 0, is stored as 0. *)
Theorem single_iteration_all_zero
    (h w : Z) (x0 x1 y0 y1 : F) (max_iter : Z) g (j k : nat) (e : Z) :
  max_iter <= 1 ->
  mandelbrot h w x0 x1 y0 y1 max_iter = Ok g ->
  get2 g j k = Some e ->
  e = 0.
Proof.
  intros Hmax Hg He.
  destruct (mandelbrot_Ok_sizes _ _ _ _ _ _ _ _ Hg) as [Hh Hw].
  destruct (mandelbrot_cells h w x0 x1 y0 y1 max_iter Hh Hw)
    as (C & g0 & HC & Hg0 & HshC & Hshg & _).
  rewrite Hg in Hg0. injection Hg0 as <-.
  destruct (get2_Some_lt _ _ _ _ _ _ Hshg He) as [Hj Hk].
  destruct (shape_lookup _ _ _ j k HshC Hj Hk) as [c Hc].
  rewrite (mandelbrot_entry _ _ _ _ _ _ _ _ _ _ _ _ HC Hg Hc) in He.
  injection He as <-.
  destruct (cell_run_value c (range max_iter) (czero, 0)) as [->|(i & Hi & ->)]; [done|].
  unfold range in Hi. apply elem_of_seqZ in Hi.
  by replace i with 0 by lia.
Qed.
End EvaluatorMore.

(** The middle cell of the 3 x 3 grid over [-1, 1]^2 and the only cell of
    the 1 x 1 grid at the origin sample the same point. *)
Lemma same_sample_same_entry_witness :
  exists C g C' g',
    sample_points 3 3 (-1)%float 1%float (-1)%float 1%float = Ok C /\
    mandelbrot 3 3 (-1)%float 1%float (-1)%float 1%float 50 = Ok g /\
    sample_points 1 1 0%float 0%float 0%float 0%float = Ok C' /\
    mandelbrot 1 1 0%float 0%float 0%float 0%float 50 = Ok g' /\
    get2 C 1 1 = Some (Complex 0%float 0%float) /\
    get2 C' 0 0 = Some (Complex 0%float 0%float) /\
    get2 g 1 1 = get2 g' 0 0.
Proof.
  do 4 eexists.
  split; [vm_compute; reflexivity|]. split; [vm_compute; reflexivity|].
  split; [vm_compute; reflexivity|]. split; [vm_compute; reflexivity|].
  split; [reflexivity|]. split; [reflexivity|].
  eapply (same_sample_same_entry
            3 3 (-1)%float 1%float (-1)%float 1%float
            1 1 0%float 0%float 0%float 0%float 50).
  - vm_compute; reflexivity.
  - vm_compute; reflexivity.
  - vm_compute; reflexivity.
  - vm_compute; reflexivity.
  - reflexivity.
  - reflexivity.
Defined.

(** The 3 x 3 grid over [2, 4] x [-1, 1]: the middle cell samples [3+0j],
    whose escape time is 1. *)
Lemma entry_is_escape_time_witness :
  exists C g,
    50 <= 2 ^ 31 /\
    sample_points 3 3 2%float 4%float (-1)%float 1%float = Ok C /\
    mandelbrot 3 3 2%float 4%float (-1)%float 1%float 50 = Ok g /\
    get2 C 1 1 = Some (Complex 3%float 0%float) /\
    escape_time (Complex 3%float 0%float) 50 = 1 /\
    get2 g 1 1 = Some (escape_time (Complex 3%float 0%float) 50).
Proof.
  do 2 eexists.
  split; [lia|].
  split; [vm_compute; reflexivity|]. split; [vm_compute; reflexivity|].
  split; [reflexivity|]. split; [vm_compute; reflexivity|].
  eapply (entry_is_escape_time 3 3 2%float 4%float (-1)%float 1%float 50).
  - lia.
  - vm_compute; reflexivity.
  - vm_compute; reflexivity.
  - reflexivity.
Defined.

(** The draft and the refined budget of the program, 50 and 500, on the
    3 x 3 grid over [-1, 1]^2, at the corner cell. *)
Lemma larger_budget_keeps_escaped_witness :
  exists g g',
    50 <= 500 /\
    mandelbrot 3 3 (-1)%float 1%float (-1)%float 1%float 50 = Ok g /\
    mandelbrot 3 3 (-1)%float 1%float (-1)%float 1%float 500 = Ok g' /\
    get2 g 0 0 = Some 2 /\
    2 <> 0 /\
    get2 g' 0 0 = Some 2.
Proof.
  do 2 eexists.
  split; [lia|].
  split; [vm_compute; reflexivity|]. split; [vm_compute; reflexivity|].
  split; [reflexivity|]. split; [lia|].
  eapply (larger_budget_keeps_escaped 3 3 (-1)%float 1%float (-1)%float 1%float 50 500).
  - lia.
  - vm_compute; reflexivity.
  - vm_compute; reflexivity.
  - reflexivity.
  - lia.
Defined.

(** One iteration on the 3 x 3 grid over [2, 4] x [-1, 1], all of whose
    points are outside the radius. *)
Lemma single_iteration_all_zero_witness :
  exists g,
    1 <= 1 /\
    mandelbrot 3 3 2%float 4%float (-1)%float 1%float 1 = Ok g /\
    get2 g 1 1 = Some 0 /\
    0 = 0.
Proof.
  eexists.
  split; [lia|]. split; [vm_compute; reflexivity|]. split; [reflexivity|].
  eapply (single_iteration_all_zero 3 3 2%float 4%float (-1)%float 1%float 1 _ 1%nat 1%nat 0).
  - lia.
  - vm_compute; reflexivity.
  - reflexivity.
Defined.

(** * The evaluator in exact arithmetic *)

Section EvaluatorExact.
Local Open Scope Q_scope.
Implicit Types (c z : complex Q).

Lemma escaped_exact z : escaped z = true <-> 4 < re z * re z + im z * im z.
Proof. unfold escaped. apply fgt_exact. Qed.

(** The loop treats conjugate points alike. *)
Lemma cell_run_conjugate c c' (l : list Z) :
  re c == re c' -> im c == - im c' ->
  forall z z' (d : Z),
    re z == re z' -> im z == - im z' ->
    re (cell_run c (z, d) l).1 == re (cell_run c' (z', d) l).1 /\
    im (cell_run c (z, d) l).1 == - im (cell_run c' (z', d) l).1 /\
    (cell_run c (z, d) l).2 = (cell_run c' (z', d) l).2.
Proof.
  intros Hre Him. induction l as [|i l IH]; intros z z' d Hzre Hzim; [done|].
  rewrite !cell_run_cons. unfold cell_step.
  destruct (d =? 0)%Z; [|by apply IH].
  assert (Hre2 : re (cadd (cmul z z) c) == re (cadd (cmul z' z') c')).
  { simpl. rewrite Hzre, Hzim, Hre. ring. }
  assert (Him2 : im (cadd (cmul z z) c) == - im (cadd (cmul z' z') c')).
  { simpl. rewrite Hzre, Hzim, Him. ring. }
  assert (Hesc : escaped (cadd (cmul z z) c) = escaped (cadd (cmul z' z') c')).
  { unfold escaped. cbn [fgt fadd fmul exact lit]. f_equal.
    apply Qleb_comp; [|done]. rewrite Hre2, Him2. ring. }
  rewrite Hesc. by apply IH.
Qed.

(** X8 (symmetry about the real axis): in exact arithmetic, two cells that
    sample conjugate points hold the same value, in one call or in two
    calls with the same [max_iter]. *)
Theorem conjugate_samples_same_entry
    (h w : Z) (x0 x1 y0 y1 : Q) (h' w' : Z) (x0' x1' y0' y1' : Q) (max_iter : Z)
    C g C' g' (j k j' k' : nat) c c' :
  sample_points h w x0 x1 y0 y1 = Ok C ->
  mandelbrot h w x0 x1 y0 y1 max_iter = Ok g ->
  sample_points h' w' x0' x1' y0' y1' = Ok C' ->
  mandelbrot h' w' x0' x1' y0' y1' max_iter = Ok g' ->
  get2 C j k = Some c ->
  get2 C' j' k' = Some c' ->
  re c == re c' -> im c == - im c' ->
  get2 g j k = get2 g' j' k'.
Proof.
  intros HC Hg HC' Hg' Hc Hc' Hre Him.
  rewrite (mandelbrot_entry _ _ _ _ _ _ _ _ _ _ _ _ HC Hg Hc).
  rewrite (mandelbrot_entry _ _ _ _ _ _ _ _ _ _ _ _ HC' Hg' Hc').
  f_equal.
  apply (cell_run_conjugate c c' (range max_iter) Hre Him czero czero 0%Z); simpl; ring.
Qed.
End EvaluatorExact.

(** The 3 x 3 grid over [-1, 1]^2 with three iterations: the corners of
    the first column sample [-1-1j] and [-1+1j]. *)
Lemma conjugate_samples_same_entry_witness :
  exists C g c c',
    sample_points 3 3 (-1)%Q 1%Q (-1)%Q 1%Q = Ok C /\
    mandelbrot 3 3 (-1)%Q 1%Q (-1)%Q 1%Q 3 = Ok g /\
    get2 C 0 0 = Some c /\
    get2 C 2 0 = Some c' /\
    (re c == re c')%Q /\ (im c == - im c')%Q /\
    get2 g 0 0 = get2 g 2 0.
Proof.
  do 4 eexists.
  split; [vm_compute; reflexivity|]. split; [vm_compute; reflexivity|].
  split; [reflexivity|]. split; [reflexivity|].
  split; [vm_compute; reflexivity|]. split; [vm_compute; reflexivity|].
  eapply (conjugate_samples_same_entry
            3 3 (-1)%Q 1%Q (-1)%Q 1%Q 3 3 (-1)%Q 1%Q (-1)%Q 1%Q 3).
  - vm_compute; reflexivity.
  - vm_compute; reflexivity.
  - vm_compute; reflexivity.
  - vm_compute; reflexivity.
  - reflexivity.
  - reflexivity.
  - vm_compute; reflexivity.
  - vm_compute; reflexivity.
Defined.

(** * Further properties of the click handler *)

Section ControllerMore.
Context {F : Type} `{PyFloat F}.
Implicit Types (st : session F) (a : interaction F).

(** X16 (a dot is handled once): when the script runs again on the same
    canvas before the pending zoom is served, the handler does not fire a
    second time: the viewport, [total_zoom] and the recorded point are those
    of the first run. *)
Theorem dot_handled_once st (objects : list (F * F)) (now now' : F) :
  let st1 := on_canvas st objects now in
  let st2 := on_canvas st1 objects now' in
  zoom_pending st = false ->
  objects <> [] ->
  zoom_pending st1 = true /\
  x_min st2 = x_min st1 /\ x_max st2 = x_max st1 /\
  y_min st2 = y_min st1 /\ y_max st2 = y_max st1 /\
  total_zoom st2 = total_zoom st1 /\
  last_point st2 = last_point st1 /\
  last_click_time st2 = last_click_time st1.
Proof.
  intros st1 st2 Hpending Hne. subst st1 st2. unfold on_canvas.
  destruct (last objects) as [[x y]|] eqn:Hlast.
  - simpl. rewrite Hpending. simpl. done.
  - apply last_None in Hlast. done.
Qed.
End ControllerMore.

(** A dot at the centre of the canvas of a fresh session. *)
Lemma dot_handled_once_witness :
  let st := initial_session 0%float in
  let st1 := on_canvas st [(800%float, 450%float)] 1%float in
  let st2 := on_canvas st1 [(800%float, 450%float)] 2%float in
  zoom_pending st = false /\
  [(800%float, 450%float)] <> [] /\
  zoom_pending st1 = true /\
  x_min st2 = x_min st1 /\ x_max st2 = x_max st1 /\
  y_min st2 = y_min st1 /\ y_max st2 = y_max st1 /\
  total_zoom st2 = total_zoom st1 /\
  last_point st2 = last_point st1 /\
  last_click_time st2 = last_click_time st1.
Proof.
  split; [reflexivity|]. split; [discriminate|].
  apply (dot_handled_once (initial_session 0%float) [(800%float, 450%float)] 1%float 2%float).
  - reflexivity.
  - discriminate.
Defined.

(** * The quality upgrade *)

Section Upgrade.
Context {F : Type} `{PyFloat F}.
Implicit Types (st : session F) (clock : list F).

(** The two ways the polling loop ends: the refined render, after a clock
    value at which the wait is over, or the break of line 181, which only
    restarts the timer. *)
Lemma upgrade_loop_cases st (has_dot : bool) clock :
  forall st' r,
    upgrade_loop st has_dot clock = Some (st', r) ->
    (r = Some 500 /\ st' = set_image_quality st high /\
     exists t, t ∈ clock /\ waiting st t = false)
    \/ (r = None /\ has_dot = true /\
        exists t t3, t ∈ clock /\ waiting st t = true /\ st' = set_last_click_time st t3).
Proof.
  assert (Hboth :
    (forall st' r,
      upgrade_loop st has_dot clock = Some (st', r) ->
      (r = Some 500 /\ st' = set_image_quality st high /\
       exists t, t ∈ clock /\ waiting st t = false)
      \/ (r = None /\ has_dot = true /\
          exists t t3, t ∈ clock /\ waiting st t = true /\ st' = set_last_click_time st t3))
    /\
    (forall t0 st' r,
      upgrade_loop st has_dot (t0 :: clock) = Some (st', r) ->
      (r = Some 500 /\ st' = set_image_quality st high /\
       exists t, t ∈ t0 :: clock /\ waiting st t = false)
      \/ (r = None /\ has_dot = true /\
          exists t t3, t ∈ t0 :: clock /\ waiting st t = true /\ st' = set_last_click_time st t3))).
  { induction clock as [|t1 clock IH].
    - split; [discriminate|].
      intros t0 st' r. simpl. destruct (waiting st t0) eqn:Hw; [discriminate|].
      intros [= <- <-]. left. split; [done|]. split; [done|].
      exists t0. split; [left|done].
    - destruct IH as [IH0 IH1]. split; [apply IH1|].
      intros t0 st' r. simpl. destruct (waiting st t0) eqn:Hw.
      + destruct has_dot.
        * destruct clock as [|t3 clock']; [discriminate|].
          intros [= <- <-]. right. split; [done|]. split; [done|].
          exists t0, t3. split; [left|done].
        * intros Hrec. destruct (IH0 st' r Hrec) as [(? & ? & t & Ht & ?)|(? & ? & _)].
          -- left. split; [done|]. split; [done|].
             exists t. split; [by do 2 right|done].
          -- discriminate.
      + intros [= <- <-]. left. split; [done|]. split; [done|].
        exists t0. split; [left|done]. }
  apply Hboth.
Qed.





(** X17 (the upgrade touches nothing else): whatever the clock and the
    canvas, the quality upgrade block leaves the viewport, the zoom factor,
    [total_zoom], the recorded point, the resolution and the pending flag
    as they were. *)
Theorem upgrade_quality_frame st (has_dot : bool) clock st' r :
  upgrade_quality st has_dot clock = Some (st', r) ->
  x_min st' = x_min st /\ x_max st' = x_max st /\
  y_min st' = y_min st /\ y_max st' = y_max st /\
  zoom_factor st' = zoom_factor st /\ total_zoom st' = total_zoom st /\
  last_point st' = last_point st /\ resolution st' = resolution st /\
  zoom_pending st' = zoom_pending st.
Proof.
  unfold upgrade_quality. destruct (image_quality st).
  - intros Hloop.
    destruct (upgrade_loop_cases st has_dot clock st' r Hloop)
      as [(_ & -> & _)|(_ & _ & t & t3 & _ & _ & ->)]; done.
  - by intros [= <- <-].
Qed.

(** X18 (when the refined render is issued): the block issues a render
    only for a draft image, with 500 iterations, and only after the clock
    gave a value that is not less than 10 after [last_click_time]; the image
    is then marked [high].  When it issues no render the quality is
    unchanged. *)
Theorem upgrade_quality_render st (has_dot : bool) clock st' r :
  upgrade_quality st has_dot clock = Some (st', r) ->
  match r with
  | Some m =>
      m = 500 /\ image_quality st = very_low /\ image_quality st' = high /\
      last_click_time st' = last_click_time st /\
      exists t, t ∈ clock /\ waiting st t = false
  | None => image_quality st' = image_quality st
  end.
Proof.
  unfold upgrade_quality. destruct (image_quality st) eqn:Hq.
  - intros Hloop.
    destruct (upgrade_loop_cases st has_dot clock st' r Hloop)
      as [(-> & -> & t & Ht & Hw)|(-> & _ & t & t3 & _ & _ & ->)].
    + repeat split; try done. by exists t.
    + done.
  - by intros [= <- <-].
Qed.

(** X19 (the wait ends): for a draft image with no dot on the canvas, as
    soon as a loop test reads a clock value that is not less than 10 after
    [last_click_time], the earlier tests having read smaller values, the
    block issues the render with 500 iterations and marks the image [high];
    each earlier round of the loop reads the clock twice. *)
Theorem upgrade_quality_fires st (rounds : list (F * F)) (t : F) (rest : list F) :
  image_quality st = very_low ->
  Forall (fun p => waiting st p.1 = true) rounds ->
  waiting st t = false ->
  upgrade_quality st false (flat_map (fun p => [p.1; p.2]) rounds ++ t :: rest)
  = Some (set_image_quality st high, Some 500).
Proof.
  intros Hq Hrounds Ht. unfold upgrade_quality. rewrite Hq.
  induction Hrounds as [|[p1 p2] rounds Hp _ IH]; simpl.
  - by rewrite Ht.
  - simpl in Hp. by rewrite Hp.
Qed.
End Upgrade.


(** A fresh session whose last click was at time 0: the loop tests read 3
    and 7, then 10. *)
Lemma upgrade_quality_frame_witness :
  let st := initial_session 0%float in
  let clock := [3%float; 3%float; 7%float; 7%float; 10%float] in
  upgrade_quality st false clock = Some (set_image_quality st high, Some 500) /\
  x_min (set_image_quality st high) = x_min st /\
  x_max (set_image_quality st high) = x_max st /\
  y_min (set_image_quality st high) = y_min st /\
  y_max (set_image_quality st high) = y_max st /\
  zoom_factor (set_image_quality st high) = zoom_factor st /\
  total_zoom (set_image_quality st high) = total_zoom st /\
  last_point (set_image_quality st high) = last_point st /\
  resolution (set_image_quality st high) = resolution st /\
  zoom_pending (set_image_quality st high) = zoom_pending st.
Proof.
  split; [vm_compute; reflexivity|].
  apply (upgrade_quality_frame (initial_session 0%float) false
           [3%float; 3%float; 7%float; 7%float; 10%float] _ (Some 500)).
  vm_compute; reflexivity.
Defined.

Lemma upgrade_quality_render_witness :
  let st := initial_session 0%float in
  let clock := [3%float; 3%float; 7%float; 7%float; 10%float] in
  upgrade_quality st false clock = Some (set_image_quality st high, Some 500) /\
  (500 = 500 /\ image_quality st = very_low /\
   image_quality (set_image_quality st high) = high /\
   last_click_time (set_image_quality st high) = last_click_time st /\
   exists t, t ∈ clock /\ waiting st t = false).
Proof.
  split; [vm_compute; reflexivity|].
  apply (upgrade_quality_render (initial_session 0%float) false
           [3%float; 3%float; 7%float; 7%float; 10%float] _ (Some 500)).
  vm_compute; reflexivity.
Defined.

Lemma upgrade_quality_fires_witness :
  let st := initial_session 0%float in
  image_quality st = very_low /\
  Forall (fun p => waiting st p.1 = true) [(3%float, 3%float); (7%float, 7%float)] /\
  waiting st 10%float = false /\
  upgrade_quality st false
    (flat_map (fun p => [p.1; p.2]) [(3%float, 3%float); (7%float, 7%float)]
       ++ 10%float :: [])
  = Some (set_image_quality st high, Some 500).
Proof.
  split; [reflexivity|].
  split; [repeat constructor|].
  split; [reflexivity|].
  apply (upgrade_quality_fires (initial_session 0%float)
           [(3%float, 3%float); (7%float, 7%float)] 10%float []).
  - reflexivity.
  - repeat constructor.
  - reflexivity.
Defined.

(** * The inner disc, in exact arithmetic *)

Section Regions.
Local Open Scope Q_scope.

Lemma Qsquare_nonneg (t : Q) : 0 <= t * t.
Proof. destruct (Qlt_le_dec t 0); nra. Qed.

(** One update keeps [|z| <= 1/2] when [|c| <= 1/4]. *)
Lemma inner_disc_update (x y a b : Q) :
  x * x + y * y <= 1 # 4 ->
  a * a + b * b <= 1 # 16 ->
  (x * x - y * y + a) * (x * x - y * y + a) + (x * y + y * x + b) * (x * y + y * x + b)
    <= 1 # 4.
Proof.
  intros Hz Hc.
  set (u := x * x - y * y). set (v := x * y + y * x).
  assert (Hw : u * u + v * v == (x * x + y * y) * (x * x + y * y))
    by (unfold u, v; ring).
  assert (Hw16 : u * u + v * v <= 1 # 16).
  { rewrite Hw. assert (0 <= x * x + y * y) by nra. nra. }
  clearbody u v. clear Hw Hz x y.
  assert (Hcs : (u * a + v * b) * (u * a + v * b)
                == (u * u + v * v) * (a * a + b * b) - (u * b - v * a) * (u * b - v * a))
    by ring.
  assert (Hprod : (u * u + v * v) * (a * a + b * b) <= 1 # 256).
  { assert (0 <= u * u + v * v) by nra. assert (0 <= a * a + b * b) by nra. nra. }
  assert (Hx2 : (u * a + v * b) * (u * a + v * b) <= 1 # 256).
  { rewrite Hcs. pose proof (Qsquare_nonneg (u * b - v * a)) as H.
    revert Hprod H. generalize ((u * u + v * v) * (a * a + b * b))
                               ((u * b - v * a) * (u * b - v * a)).
    intros p q Hp Hq. lra. }
  assert (Hx : u * a + v * b <= 1 # 16) by nra.
  assert (Hexp : (u + a) * (u + a) + (v + b) * (v + b)
                 == (u * u + v * v) + (a * a + b * b) + 2 * (u * a + v * b)) by ring.
  rewrite Hexp. revert Hw16 Hc Hx.
  generalize (u * u + v * v) (a * a + b * b) (u * a + v * b).
  intros p q r Hp Hq Hr. lra.
Qed.

Lemma inner_disc_orbit (c : complex Q) (n : nat) :
  re c * re c + im c * im c <= 1 # 16 ->
  re (orbit c n) * re (orbit c n) + im (orbit c n) * im (orbit c n) <= 1 # 4.
Proof.
  intros Hc. induction n as [|n IH].
  - simpl. discriminate.
  - simpl. by apply inner_disc_update.
Qed.

(** X20 (the inner disc): in exact arithmetic a cell whose sample point has
    modulus at most 1/4 never leaves the radius, and holds 0 in the returned
    array for every [max_iter]. *)
Theorem inner_disc_records_zero
    (h w : Z) (x0 x1 y0 y1 : Q) (max_iter : Z) C g (j k : nat) (c : complex Q) :
  sample_points h w x0 x1 y0 y1 = Ok C ->
  mandelbrot h w x0 x1 y0 y1 max_iter = Ok g ->
  get2 C j k = Some c ->
  re c * re c + im c * im c <= 1 # 16 ->
  (forall n, escaped (orbit c n) = false) /\ get2 g j k = Some 0%Z.
Proof.
  intros HC Hg Hc Hin.
  assert (Hb : forall n, escaped (orbit c n) = false).
  { intros n. apply not_true_iff_false. rewrite escaped_exact.
    pose proof (inner_disc_orbit c n Hin). lra. }
  split; [done|].
  rewrite (mandelbrot_entry _ _ _ _ _ _ _ _ _ _ _ _ HC Hg Hc).
  by rewrite cell_run_never_escapes.
Qed.

End Regions.

(** The middle cell of the 3 x 3 grid over [-1, 1]^2 samples the origin. *)
Lemma inner_disc_records_zero_witness :
  exists C g c,
    sample_points 3 3 (-1)%Q 1%Q (-1)%Q 1%Q = Ok C /\
    mandelbrot 3 3 (-1)%Q 1%Q (-1)%Q 1%Q 3 = Ok g /\
    get2 C 1 1 = Some c /\
    (re c * re c + im c * im c <= 1 # 16)%Q /\
    (forall n, escaped (orbit c n) = false) /\
    get2 g 1 1 = Some 0.
Proof.
  do 3 eexists.
  split; [vm_compute; reflexivity|]. split; [vm_compute; reflexivity|].
  split; [reflexivity|]. split; [vm_compute; discriminate|].
  eapply (inner_disc_records_zero 3 3 (-1)%Q 1%Q (-1)%Q 1%Q 3).
  - vm_compute; reflexivity.
  - vm_compute; reflexivity.
  - reflexivity.
  - vm_compute; discriminate.
Defined.

